(** * NoPartsBatteryGuageAVR: supply-voltage gauge on an ATtiny84A

    A shallow embedding of [NoPartsBatteryGuageAVR.c].  The program has two
    functions, [readVccVoltage] and [main]; both are sequences of accesses to
    memory-mapped registers and of calibrated delays.  They are written
    below in a small state-and-fault monad over a model of the
    microcontroller, and the hardware keeps a log of what it was asked to do. *)

From Stdlib Require Import ZArith List Bool Lia.
Import ListNotations.
Local Open Scope Z_scope.

(** ** The microcontroller *)

Module AVR.

(** The registers the program touches. *)
Inductive reg : Type := ADMUX | ADCSRA | ADCL | ADCH | DDRA | PORTA.

(** Bit numbers of <avr/io.h> used by the program. *)
Definition ADEN : Z := 7.
Definition ADSC : Z := 6.
Definition ADPS1 : Z := 1.
Definition ADPS0 : Z := 0.
Definition PORTA7 : Z := 7.

Definition _BV (bit : Z) : Z := Z.shiftl 1 bit.

(** [#define F_CPU 1000000]: CPU cycles per second. *)
Definition F_CPU : Z := 1000000.

(** What the hardware logs: register writes and delays requested by the
    program, and the start and the end of each conversion ([k] numbers the
    conversions from power-up, [raw] is the 10-bit result latched). *)
Inductive event : Type :=
| Write (r : reg) (v : Z)
| Delay (ms : Z)
| Start (k : nat)
| Finish (k : nat) (raw : Z).

(** Every log entry also holds the level of the LED pin and the state of the
    converter's enable bit just after the event. *)
Record probe : Type := Probe {
  what : event;
  led : bool;
  adc_on : bool
}.

Record avr : Type := Avr {
  admux : Z;
  adcsra : Z;
  adcl : Z;
  adch : Z;
  ddra : Z;
  porta : Z;
  busy : option Z;      (* CPU cycles left of the conversion in progress *)
  warm : bool;          (* a conversion was started since the ADC was enabled *)
  nconv : nat;          (* conversions started since power-up *)
  source : nat -> Z;    (* what the k-th conversion measures *)
  trace : list probe    (* the log, newest entry first *)
}.

(** Power-on reset: all I/O registers read zero. *)
Definition reset (src : nat -> Z) : avr :=
  Avr 0 0 0 0 0 0 None false 0 src [].

Definition set_admux (v : Z) (s : avr) : avr :=
  Avr v (adcsra s) (adcl s) (adch s) (ddra s) (porta s)
      (busy s) (warm s) (nconv s) (source s) (trace s).
Definition set_ddra (v : Z) (s : avr) : avr :=
  Avr (admux s) (adcsra s) (adcl s) (adch s) v (porta s)
      (busy s) (warm s) (nconv s) (source s) (trace s).
Definition set_porta (v : Z) (s : avr) : avr :=
  Avr (admux s) (adcsra s) (adcl s) (adch s) (ddra s) v
      (busy s) (warm s) (nconv s) (source s) (trace s).
Definition set_trace (t : list probe) (s : avr) : avr :=
  Avr (admux s) (adcsra s) (adcl s) (adch s) (ddra s) (porta s)
      (busy s) (warm s) (nconv s) (source s) t.
Definition set_busy (b : option Z) (s : avr) : avr :=
  Avr (admux s) (adcsra s) (adcl s) (adch s) (ddra s) (porta s)
      b (warm s) (nconv s) (source s) (trace s).
(** The converter's own state: control register, conversion in progress,
    warm flag and conversion counter. *)
Definition set_adc (csra : Z) (b : option Z) (w : bool) (n : nat) (s : avr) : avr :=
  Avr (admux s) csra (adcl s) (adch s) (ddra s) (porta s)
      b w n (source s) (trace s).
(** The control register and the two data registers, at the end of a conversion. *)
Definition set_result (csra lo hi : Z) (s : avr) : avr :=
  Avr (admux s) csra lo hi (ddra s) (porta s)
      None (warm s) (nconv s) (source s) (trace s).

(** The LED is lit when PA7 is an output and driven high. *)
Definition led_lit (s : avr) : bool :=
  Z.testbit (ddra s) PORTA7 && Z.testbit (porta s) PORTA7.

Definition adc_enabled (s : avr) : bool := Z.testbit (adcsra s) ADEN.

Definition log (e : event) (s : avr) : avr :=
  set_trace (Probe e (led_lit s) (adc_enabled s) :: trace s) s.

(** End of a conversion: the hardware clears ADSC and latches the 10-bit
    result into ADCH:ADCL. *)
Definition latch (s : avr) : avr :=
  let k := pred (nconv s) in
  let raw := source s k mod 1024 in
  log (Finish k raw)
      (set_result (Z.land (adcsra s) (Z.lnot (_BV ADSC))) (raw mod 256) (raw / 256) s).

(** Let [cycles] CPU cycles pass. *)
Definition tick (cycles : Z) (s : avr) : avr :=
  match busy s with
  | None => s
  | Some todo => if todo <=? cycles then latch s else set_busy (Some (todo - cycles)) s
  end.

(** ADC clock prescaler selected by ADPS2:0 (division factor 2, 2, 4, 8, ..., 128). *)
Definition prescaler (csra : Z) : Z := Z.max 2 (Z.shiftl 1 (Z.land csra 7)).

(** A write to ADCSRA.  Clearing ADEN turns the converter off and ends any
    conversion.  With ADEN set, writing one to ADSC starts a conversion unless
    one is in progress; ADSC reads one until the conversion ends.  The first
    conversion after the converter was enabled takes 25 ADC clock cycles, the
    following ones 13.  The interrupt flag and enable and the auto trigger
    are not used by the program and are not modelled. *)
Definition write_ADCSRA (v : Z) (s : avr) : avr :=
  if negb (Z.testbit v ADEN) then
    log (Write ADCSRA v)
        (set_adc (Z.land v (Z.lnot (_BV ADSC))) None false (nconv s) s)
  else
    match busy s with
    | Some todo =>
        log (Write ADCSRA v) (set_adc (Z.lor v (_BV ADSC)) (Some todo) (warm s) (nconv s) s)
    | None =>
        if Z.testbit v ADSC then
          let duration := (if warm s then 13 else 25) * prescaler v in
          log (Start (nconv s))
              (log (Write ADCSRA v)
                   (set_adc v (Some duration) true (S (nconv s)) s))
        else
          log (Write ADCSRA v) (set_adc v None (warm s) (nconv s) s)
    end.

(** A register access takes one CPU cycle. *)
Definition store (r : reg) (v : Z) (s : avr) : avr :=
  let v := Z.land v 255 in
  let s := tick 1 s in
  match r with
  | ADMUX => log (Write ADMUX v) (set_admux v s)
  | ADCSRA => write_ADCSRA v s
  | ADCL => log (Write ADCL v) s
  | ADCH => log (Write ADCH v) s
  | DDRA => log (Write DDRA v) (set_ddra v s)
  | PORTA => log (Write PORTA v) (set_porta v s)
  end.

Definition load (r : reg) (s : avr) : Z * avr :=
  let s := tick 1 s in
  (match r with
   | ADMUX => admux s
   | ADCSRA => adcsra s
   | ADCL => adcl s
   | ADCH => adch s
   | DDRA => ddra s
   | PORTA => porta s
   end, s).

(** [_delay_ms] of <util/delay.h>: a busy loop of [ms * F_CPU / 1000] cycles. *)
Definition pause (ms : Z) (s : avr) : avr :=
  tick (ms * (F_CPU / 1000)) (log (Delay ms) s).

End AVR.
Import AVR.

(** ** Program monad: hardware state and the ways a run can stop *)

Inductive fault : Type :=
| DivisionByZero   (* undefined behaviour of [/] in C *)
| OutOfFuel.       (* a busy-wait loop polled longer than the fuel allows *)

Inductive outcome (A : Type) : Type :=
| Done (a : A) (s : avr)
| Fault (f : fault) (s : avr).
Arguments Done {A} a s.
Arguments Fault {A} f s.

Definition M (A : Type) : Type := avr -> outcome A.

Definition ret {A} (a : A) : M A := fun s => Done a s.
Definition bind {A B} (m : M A) (k : A -> M B) : M B :=
  fun s => match m s with
           | Done a s' => k a s'
           | Fault f s' => Fault f s'
           end.
Definition raise {A} (f : fault) : M A := fun s => Fault f s.

Notation "x <- m ;; k" := (bind m (fun x => k))
  (at level 61, m at next level, right associativity).
Notation "m ;; k" := (bind m (fun _ => k))
  (at level 61, right associativity).

Definition rd (r : reg) : M Z := fun s => let (v, s') := load r s in Done v s'.
Definition wr (r : reg) (v : Z) : M unit := fun s => Done tt (store r v s).
Definition _delay_ms (ms : Z) : M unit := fun s => Done tt (pause ms s).

(** C integer types of the program. *)
Definition u8 (x : Z) : Z := x mod 256.
Definition u16 (x : Z) : Z := x mod 65536.

(** [R |= bits] and [R &= ~bits] on a volatile register: a read, then a write. *)
Definition or_assign (r : reg) (bits : Z) : M unit :=
  v <- rd r ;; wr r (Z.lor v bits).
Definition and_not_assign (r : reg) (bits : Z) : M unit :=
  v <- rd r ;; wr r (Z.land v (Z.lnot bits)).

(** [while (R & _BV(bit)) ;] polling at most [fuel] times. *)
Fixpoint while_set (fuel : nat) (r : reg) (bit : Z) : M unit :=
  match fuel with
  | O => raise OutOfFuel
  | S fuel' =>
      v <- rd r ;;
      if Z.land v (_BV bit) =? 0 then ret tt else while_set fuel' r bit
  end.

(** Unsigned 16-bit division; dividing by zero is undefined in C. *)
Definition udiv (a b : Z) : M Z :=
  if b =? 0 then raise DivisionByZero else ret (a / b).

(** ** The program *)

(** [uint16_t readVccVoltage(void)], lines 50 to 127.  [low], [high] and
    [vccx10] are [uint8_t], [adc] and the value returned are [uint16_t]; the
    two polling loops share the fuel. *)
Definition readVccVoltage (fuel : nat) : M Z :=
  wr ADMUX 33 ;;                                                     (* 0b00100001 *)
  or_assign ADCSRA (Z.lor (Z.lor (Z.lor (_BV ADEN) (_BV ADSC)) (_BV ADPS1)) (_BV ADPS0)) ;;
  _delay_ms 1 ;;
  or_assign ADCSRA (_BV ADSC) ;;
  while_set fuel ADCSRA ADSC ;;
  or_assign ADCSRA (_BV ADSC) ;;
  while_set fuel ADCSRA ADSC ;;
  l <- rd ADCL ;;
  let low := u8 l in
  h <- rd ADCH ;;
  let high := u8 h in
  let adc := u16 (Z.lor (Z.shiftl high 8) low) in      (* 0 <= result <= 1023 *)
  q <- udiv (11 * 1024) adc ;;
  let vccx10 := u8 q in
  and_not_assign ADCSRA (_BV ADEN) ;;
  ret (u16 vccx10).

(** One blink: the body of the [for] loop of [main], lines 153 to 159. *)
Definition blink : M unit :=
  or_assign PORTA (_BV PORTA7) ;;
  _delay_ms 250 ;;
  and_not_assign PORTA (_BV PORTA7) ;;
  _delay_ms 250.

(** [for (int i = 0; i < n; i++) body], for a body that neither reads nor
    writes [i]: the body runs [n] times. *)
Fixpoint for_lt (n : nat) (body : M unit) : M unit :=
  match n with
  | O => ret tt
  | S n' => body ;; for_lt n' body
  end.

(** The rest of an iteration of [while(1)], once [vccx10] is known: lines
    147 to 163. *)
Definition indicate (vccx10 : Z) : M unit :=
  let vcc := u8 (vccx10 / 10) in
  for_lt (Z.to_nat vcc) blink ;;
  _delay_ms 1000.

(** One iteration of the [while(1)] loop of [main], lines 143 to 163. *)
Definition loop_body (fuel : nat) : M unit :=
  r <- readVccVoltage fuel ;;
  let vccx10 := u8 r in
  indicate vccx10.

(** The first [rounds] iterations of [while(1)]. *)
Fixpoint forever (rounds : nat) (body : M unit) : M unit :=
  match rounds with
  | O => ret tt
  | S n => body ;; forever n body
  end.

(** [int main(void)], run for [rounds] iterations of its loop. *)
Definition main (rounds fuel : nat) : M unit :=
  or_assign DDRA (_BV PORTA7) ;;
  forever rounds (loop_body fuel).

(** ** Reading the log *)

Definition final_state {A} (o : outcome A) : avr :=
  match o with
  | Done _ s => s
  | Fault _ s => s
  end.

Definition returned {A} (o : outcome A) : option A :=
  match o with
  | Done a _ => Some a
  | Fault _ _ => None
  end.

(** The log entries added since the log was [old], oldest first. *)
Definition since (old : list probe) (s : avr) : list probe :=
  rev (firstn (length (trace s) - length old) (trace s)).

(** The log entries a computation adds when run from [s], oldest first. *)
Definition emitted {A} (m : M A) (s : avr) : list probe :=
  since (trace s) (final_state (m s)).

(** The whole log, oldest entry first. *)
Definition history (s : avr) : list probe := rev (trace s).

(** A blink begins where the program drives PA7 high. *)
Definition turns_led_on (p : probe) : bool :=
  match what p with
  | Write PORTA v => Z.testbit v PORTA7
  | _ => false
  end.

Definition blink_count (l : list probe) : nat := length (filter turns_led_on l).

Definition is_start (e : event) : bool :=
  match e with Start _ => true | _ => false end.
Definition is_delay (e : event) : bool :=
  match e with Delay _ => true | _ => false end.

(** Conversions started in a list of events, and those started before the
    first delay in it. *)
Definition conversions (l : list event) : nat := length (filter is_start l).
Fixpoint before_first_delay (l : list event) : list event :=
  match l with
  | [] => []
  | e :: l' => if is_delay e then [] else e :: before_first_delay l'
  end.

(** ** States between two sampling calls *)

(** The converter is off and only its prescaler bits may be set. *)
Definition idle (s : avr) : Prop :=
  busy s = None /\ 0 <= adcsra s < 4.

(** The raw sample the next call of [readVccVoltage] reads from ADCH:ADCL:
    the 10-bit result of the third conversion started from now. *)
Definition raw_sample (s : avr) : Z := source s (S (S (nconv s))) mod 1024.

(** The formula of [readVccVoltage] on a raw sample. *)
Definition decivolts (raw : Z) : Z := u8 ((11 * 1024) / raw).

(** What a sampling call from an idle state logs; [lit] is the LED level at
    the time, [n] the number of conversions started before the call. *)
Definition sampling_log (lit : bool) (n : nat) (src : nat -> Z) : list probe :=
  [ Probe (Write ADMUX 33) lit false;
    Probe (Write ADCSRA 195) lit true;
    Probe (Start n) lit true;
    Probe (Delay 1) lit true;
    Probe (Finish n (src n mod 1024)) lit true;
    Probe (Write ADCSRA 195) lit true;
    Probe (Start (S n)) lit true;
    Probe (Finish (S n) (src (S n) mod 1024)) lit true;
    Probe (Write ADCSRA 195) lit true;
    Probe (Start (S (S n))) lit true;
    Probe (Finish (S (S n)) (src (S (S n)) mod 1024)) lit true ].

(** The hardware when the second polling loop of [readVccVoltage] is left. *)
Definition converted (s : avr) : avr :=
  Avr 33 131 (raw_sample s mod 256) (raw_sample s / 256) (ddra s) (porta s)
      None true (S (S (S (nconv s)))) (source s)
      (rev (sampling_log (led_lit s) (nconv s) (source s)) ++ trace s).

(** The hardware when [readVccVoltage] returns. *)
Definition sampled (s : avr) : avr :=
  Avr 33 3 (raw_sample s mod 256) (raw_sample s / 256) (ddra s) (porta s)
      None false (S (S (S (nconv s)))) (source s)
      (Probe (Write ADCSRA 3) (led_lit s) false
         :: rev (sampling_log (led_lit s) (nconv s) (source s)) ++ trace s).

(** What a whole call logs. *)
Definition call_log (lit : bool) (n : nat) (src : nat -> Z) : list probe :=
  sampling_log lit n src ++ [Probe (Write ADCSRA 3) lit false].

(** The loop of [main] is entered with the converter idle, PA7 an output
    and driven low. *)
Definition at_loop_head (s : avr) : Prop :=
  idle s /\ ddra s = 128 /\ porta s = 0.

(** One blink as the log shows it: LED on, 250 ms, LED off, 250 ms. *)
Definition pulse_log : list probe :=
  [ Probe (Write PORTA 128) true false;
    Probe (Delay 250) true false;
    Probe (Write PORTA 0) false false;
    Probe (Delay 250) false false ].

Definition pause_probe : probe := Probe (Delay 1000) false false.

(** What one iteration of the loop logs, when [n] conversions were started
    before it: the sampling call, one pulse per whole volt, the pause. *)
Definition round_log (src : nat -> Z) (n : nat) : list probe :=
  call_log false n src
    ++ concat (repeat pulse_log (Z.to_nat (decivolts (src (S (S n)) mod 1024) / 10)))
    ++ [pause_probe].

(** The hardware at the end of an iteration begun in [s]. *)
Definition round_end (s : avr) : avr :=
  set_trace (rev (round_log (source s) (nconv s)) ++ trace s) (sampled s).

(** The samples read in [rounds] iterations, from a state with [n]
    conversions behind it, are all nonzero. *)
Definition samples_nonzero (src : nat -> Z) (n rounds : nat) : Prop :=
  forall i : nat, (i < rounds)%nat -> src (S (S (n + 3 * i))) mod 1024 <> 0.

(** What [DDRA |= _BV(PORTA7)] logs after reset. *)
Definition setup_probe : probe := Probe (Write DDRA 128) false false.

(** The converter is off and nothing is being converted. *)
Definition adc_off (s : avr) : Prop := adc_enabled s = false /\ busy s = None.

(** A converter that always measures the same raw value. *)
Definition steady (raw : Z) : nat -> Z := fun _ => raw.

(** A converter whose first three conversions give different results. *)
Definition three_samples (k : nat) : Z :=
  match k with
  | O => 300
  | S O => 250
  | _ => 225
  end.

(** ** Measures and frames for the further properties *)

(** The two registers of the LED pin. *)
Definition pins (s : avr) : Z * Z := (ddra s, porta s).

(** A computation that leaves the LED pin as it found it, however it ends. *)
Definition keeps_pins {A} (m : M A) : Prop :=
  forall s : avr, pins (final_state (m s)) = pins s.

(** [s'] is [s] but for the log and for bit 7 of PORTA (and whatever PORTA
    holds above its eight bits). *)
Definition only_PA7_differs (s s' : avr) : Prop :=
  admux s' = admux s /\ adcsra s' = adcsra s /\ adcl s' = adcl s /\ adch s' = adch s
  /\ ddra s' = ddra s /\ busy s' = busy s /\ nconv s' = nconv s
  /\ forall k : Z, 0 <= k < 7 -> Z.testbit (porta s') k = Z.testbit (porta s) k.

(** Milliseconds of delay an event asks for. *)
Definition delay_of (e : event) : Z :=
  match e with
  | Delay ms => ms
  | _ => 0
  end.

(** Milliseconds spent in delays by a list of log entries, and those spent
    with the LED lit. *)
Definition waited (l : list probe) : Z :=
  fold_right (fun p acc => delay_of (what p) + acc) 0 l.
Definition lit_time (l : list probe) : Z :=
  fold_right (fun p acc => (if led p then delay_of (what p) else 0) + acc) 0 l.

(** Conversions that ended in a list of events. *)
Definition is_finish (e : event) : bool :=
  match e with Finish _ _ => true | _ => false end.
Definition completions (l : list event) : nat := length (filter is_finish l).


(** ** Bits and bytes *)

Lemma ADSC_cleared (v : Z) : Z.land (Z.land v (Z.lnot (_BV ADSC))) (_BV ADSC) = 0.
Proof.
  rewrite <- Z.land_assoc.
  replace (Z.land (Z.lnot (_BV ADSC)) (_BV ADSC)) with 0 by reflexivity.
  apply Z.land_0_r.
Qed.

Lemma ADSC_set (v : Z) : Z.testbit v ADSC = true -> Z.land v (_BV ADSC) <> 0.
Proof.
  intros Hbit Hz.
  assert (Hc : Z.testbit (Z.land v (_BV ADSC)) ADSC = true).
  { rewrite Z.land_spec, Hbit. reflexivity. }
  rewrite Hz in Hc. discriminate Hc.
Qed.

Lemma byte_below_shifted (h l : Z) :
  0 <= l < 256 -> Z.land (h * 2 ^ 8) l = 0.
Proof.
  intros Hl. apply Z.bits_inj'. intros n Hn.
  rewrite Z.land_spec, Z.bits_0.
  destruct (Z.ltb_spec n 8) as [Hlt | Hge].
  - rewrite Z.mul_pow2_bits_low by lia. reflexivity.
  - rewrite (Z.bits_above_log2 l n), andb_false_r; [reflexivity | lia | ].
    destruct (Z.eq_dec l 0) as [-> | Hnz]; [simpl; lia | ].
    apply Z.log2_lt_pow2; [lia | ].
    apply Z.lt_le_trans with (2 ^ 8); [lia | apply Z.pow_le_mono_r; lia].
Qed.

(** [(high << 8) | low] puts the two result bytes together again. *)
Lemma high_low_joined (raw : Z) :
  0 <= raw < 65536 ->
  u16 (Z.lor (Z.shiftl (u8 (raw / 256)) 8) (u8 (raw mod 256))) = raw.
Proof.
  intros Hr. unfold u16, u8.
  assert (Hl : 0 <= raw mod 256 < 256) by (apply Z.mod_pos_bound; lia).
  assert (Hh : 0 <= raw / 256 < 256).
  { split; [apply Z.div_pos; lia | apply Z.div_lt_upper_bound; lia]. }
  rewrite (Z.mod_small (raw / 256)), (Z.mod_small (raw mod 256)) by lia.
  rewrite Z.shiftl_mul_pow2 by lia.
  rewrite <- Z.lxor_lor, <- Z.add_nocarry_lxor by (apply byte_below_shifted; exact Hl).
  change (2 ^ 8) with 256.
  rewrite (Z.mul_comm (raw / 256) 256), <- Z.div_mod by lia.
  apply Z.mod_small. lia.
Qed.

Lemma raw_sample_range (s : avr) : 0 <= raw_sample s < 1024.
Proof. unfold raw_sample. apply Z.mod_pos_bound. lia. Qed.

Lemma u16_u8 (x : Z) : u16 (u8 x) = u8 x.
Proof.
  unfold u16, u8. apply Z.mod_small.
  pose proof (Z.mod_pos_bound x 256). lia.
Qed.

Lemma u8_u8 (x : Z) : u8 (u8 x) = u8 x.
Proof. unfold u8. apply Z.mod_mod. lia. Qed.

Lemma decivolts_range (raw : Z) : 0 <= decivolts raw < 256.
Proof. unfold decivolts, u8. apply Z.mod_pos_bound. lia. Qed.

Lemma decivolts_exact (raw : Z) : 45 <= raw -> decivolts raw = 11264 / raw.
Proof.
  intros Hr. unfold decivolts, u8. change (11 * 1024) with 11264.
  apply Z.mod_small. split.
  - apply Z.div_pos; lia.
  - apply Z.div_lt_upper_bound; lia.
Qed.

Lemma whole_volts_u8 (raw : Z) :
  u8 (u8 (decivolts raw) / 10) = decivolts raw / 10.
Proof.
  replace (u8 (decivolts raw)) with (decivolts raw)
    by (unfold decivolts; symmetry; apply u8_u8).
  pose proof (decivolts_range raw) as Hd.
  unfold u8. apply Z.mod_small. split.
  - apply Z.div_pos; lia.
  - apply Z.div_lt_upper_bound; lia.
Qed.

(** ** Lists of log entries *)

Lemma repeat_concat_comm {A} (l : list A) (n : nat) :
  concat (repeat l n) ++ l = l ++ concat (repeat l n).
Proof.
  induction n as [| n IH]; simpl.
  - rewrite app_nil_r. reflexivity.
  - rewrite <- app_assoc, IH. reflexivity.
Qed.

Lemma rev_concat_repeat {A} (l : list A) (n : nat) :
  rev (concat (repeat (rev l) n)) = concat (repeat l n).
Proof.
  induction n as [| n IH]; simpl; [reflexivity | ].
  rewrite rev_app_distr, rev_involutive, IH. apply repeat_concat_comm.
Qed.

Lemma since_app (added old : list probe) (s : avr) :
  trace s = added ++ old -> since old s = rev added.
Proof.
  intros H. unfold since. rewrite H, length_app.
  replace (length added + length old - length old)%nat with (length added) by lia.
  rewrite firstn_app, Nat.sub_diag, firstn_all. simpl. rewrite app_nil_r. reflexivity.
Qed.

Lemma blink_count_app (l1 l2 : list probe) :
  blink_count (l1 ++ l2) = (blink_count l1 + blink_count l2)%nat.
Proof. unfold blink_count. rewrite filter_app, length_app. reflexivity. Qed.

Lemma blink_count_pulses (n : nat) : blink_count (concat (repeat pulse_log n)) = n.
Proof.
  induction n as [| n IH]; [reflexivity | ].
  cbn [repeat concat]. rewrite blink_count_app, IH. reflexivity.
Qed.

(** ** The hardware at rest *)

Lemma tick_idle (c : Z) (s : avr) : busy s = None -> tick c s = s.
Proof. intros H. unfold tick. rewrite H. reflexivity. Qed.

(** ** The polling loop *)

(** While a conversion is in progress the loop leaves as soon as the
    conversion ends, provided the fuel covers the cycles left. *)
Lemma while_set_converting (fuel : nat) :
  forall (s : avr) (todo : Z),
    busy s = Some todo ->
    Z.testbit (adcsra s) ADSC = true ->
    todo <= Z.of_nat fuel ->
    (0 < fuel)%nat ->
    while_set fuel ADCSRA ADSC s = Done tt (latch s).
Proof.
  induction fuel as [| fuel IH]; intros s todo Hb Hs Hf Hpos; [lia | ].
  cbn [while_set]. unfold bind, rd, load, tick. rewrite Hb.
  destruct (Z.leb_spec todo 1) as [Hle | Hgt].
  - change (adcsra (latch s)) with (Z.land (adcsra s) (Z.lnot (_BV ADSC))).
    rewrite (proj2 (Z.eqb_eq _ _) (ADSC_cleared (adcsra s))). reflexivity.
  - change (adcsra (set_busy (Some (todo - 1)) s)) with (adcsra s).
    rewrite (proj2 (Z.eqb_neq _ _) (ADSC_set _ Hs)).
    rewrite (IH (set_busy (Some (todo - 1)) s) (todo - 1));
      [destruct s; reflexivity | reflexivity | exact Hs | lia | lia].
Qed.

(** ** A sampling call from an idle converter *)

Lemma readVccVoltage_idle (fuel : nat) (s : avr) :
  idle s -> (104 <= fuel)%nat ->
  readVccVoltage fuel s =
    if raw_sample s =? 0 then Fault DivisionByZero (converted s)
    else Done (decivolts (raw_sample s)) (sampled s).
Proof.
  intros [Hb Ha] Hf.
  replace fuel with (104 + (fuel - 104))%nat by lia.
  generalize (fuel - 104)%nat as k. clear Hf fuel. intros k.
  pose proof (raw_sample_range s) as Hr.
  assert (E : readVccVoltage (104 + k) s =
              (q <- udiv (11 * 1024)
                      (u16 (Z.lor (Z.shiftl (u8 (raw_sample s / 256)) 8)
                                  (u8 (raw_sample s mod 256)))) ;;
               and_not_assign ADCSRA (_BV ADEN) ;;
               ret (u16 (u8 q))) (converted s)).
  { destruct s as [mux csra lo hi dd pa b w n src tr]. simpl in Hb, Ha. subst b.
    assert (Hc : csra = 0 \/ csra = 1 \/ csra = 2 \/ csra = 3) by lia.
    destruct w, Hc as [-> | [-> | [-> | ->]]]; reflexivity. }
  rewrite E, high_low_joined by lia.
  unfold bind, udiv.
  destruct (raw_sample s =? 0); [reflexivity | ].
  unfold ret, decivolts. rewrite u16_u8.
  destruct s as [mux csra lo hi dd pa b w n src tr]. reflexivity.
Qed.

Lemma sampled_idle (s : avr) : idle (sampled s).
Proof. split; simpl; [reflexivity | lia]. Qed.

(** ** The blink loop *)

Lemma blink_run (s : avr) :
  at_loop_head s ->
  blink s = Done tt (set_trace (rev pulse_log ++ trace s) s).
Proof.
  intros [[Hb Ha] [Hd Hp]].
  destruct s as [mux csra lo hi dd pa b w n src tr]. simpl in Hb, Ha, Hd, Hp. subst b dd pa.
  assert (Hc : csra = 0 \/ csra = 1 \/ csra = 2 \/ csra = 3) by lia.
  destruct Hc as [-> | [-> | [-> | ->]]]; reflexivity.
Qed.

Lemma for_lt_blink_run (n : nat) :
  forall s : avr,
    at_loop_head s ->
    for_lt n blink s = Done tt (set_trace (concat (repeat (rev pulse_log) n) ++ trace s) s).
Proof.
  induction n as [| n IH]; intros s Hs.
  - destruct s; reflexivity.
  - cbn [for_lt]. unfold bind. rewrite (blink_run s Hs).
    rewrite IH by exact Hs.
    cbn [repeat concat]. rewrite <- repeat_concat_comm, <- app_assoc.
    destruct s; reflexivity.
Qed.

Lemma indicate_run (d : Z) (s : avr) :
  at_loop_head s ->
  indicate d s =
    Done tt (set_trace (pause_probe
                          :: concat (repeat (rev pulse_log) (Z.to_nat (u8 (d / 10))))
                          ++ trace s) s).
Proof.
  intros Hs. unfold indicate, bind. rewrite (for_lt_blink_run _ s Hs).
  destruct Hs as [[Hb Ha] [Hd Hp]].
  destruct s as [mux csra lo hi dd pa b w n src tr]. simpl in Hb, Ha, Hd, Hp. subst b dd pa.
  assert (Hc : csra = 0 \/ csra = 1 \/ csra = 2 \/ csra = 3) by lia.
  destruct Hc as [-> | [-> | [-> | ->]]]; reflexivity.
Qed.

(** ** One iteration, and the loop *)

Lemma at_loop_head_sampled (s : avr) : at_loop_head s -> at_loop_head (sampled s).
Proof.
  intros [_ [Hd Hp]]. split; [apply sampled_idle | ]. split; assumption.
Qed.

Lemma at_loop_head_dark (s : avr) : at_loop_head s -> led_lit s = false.
Proof.
  intros [_ [_ Hp]]. unfold led_lit. rewrite Hp. apply andb_false_r.
Qed.

Lemma loop_body_run (fuel : nat) (s : avr) :
  at_loop_head s -> (104 <= fuel)%nat -> raw_sample s <> 0 ->
  loop_body fuel s = Done tt (round_end s).
Proof.
  intros Hs Hf Hraw. unfold loop_body, bind.
  rewrite (readVccVoltage_idle fuel s (proj1 Hs) Hf).
  rewrite (proj2 (Z.eqb_neq _ _) Hraw).
  rewrite (indicate_run _ (sampled s) (at_loop_head_sampled s Hs)).
  rewrite whole_volts_u8.
  unfold round_end, round_log, call_log.
  rewrite !rev_app_distr.
  rewrite <- (rev_concat_repeat (rev pulse_log)), rev_involutive.
  change (rev (rev pulse_log)) with pulse_log.
  unfold raw_sample.
  cbn [trace sampled]. rewrite (at_loop_head_dark s Hs).
  rewrite <- !app_assoc. reflexivity.
Qed.

Lemma at_loop_head_round_end (s : avr) : at_loop_head s -> at_loop_head (round_end s).
Proof. intros Hs. exact (at_loop_head_sampled s Hs). Qed.

Lemma history_round_end (s : avr) :
  history (round_end s) = history s ++ round_log (source s) (nconv s).
Proof.
  unfold history, round_end. cbn [trace set_trace].
  rewrite rev_app_distr, rev_involutive. reflexivity.
Qed.

Lemma flat_map_seq_shift {A} (f : nat -> list A) (n : nat) :
  forall a : nat, flat_map f (seq (S a) n) = flat_map (fun i => f (S i)) (seq a n).
Proof.
  induction n as [| n IH]; intros a; [reflexivity | ].
  cbn [seq flat_map]. rewrite IH. reflexivity.
Qed.

Lemma forever_run (fuel : nat) (Hf : (104 <= fuel)%nat) (rounds : nat) :
  forall s : avr,
    at_loop_head s ->
    samples_nonzero (source s) (nconv s) rounds ->
    exists s' : avr,
      forever rounds (loop_body fuel) s = Done tt s'
      /\ at_loop_head s'
      /\ source s' = source s
      /\ nconv s' = (nconv s + 3 * rounds)%nat
      /\ history s' =
           history s ++ flat_map (fun i => round_log (source s) (nconv s + 3 * i)) (seq 0 rounds).
Proof.
  induction rounds as [| rounds IH]; intros s Hs Hnz.
  - exists s. repeat split; try apply Hs.
    + lia.
    + simpl. rewrite app_nil_r. reflexivity.
  - cbn [forever]. unfold bind.
    rewrite (loop_body_run fuel s Hs Hf).
    2:{ specialize (Hnz 0%nat ltac:(lia)). unfold raw_sample.
        replace (nconv s + 3 * 0)%nat with (nconv s) in Hnz by lia. exact Hnz. }
    destruct (IH (round_end s) (at_loop_head_round_end s Hs)) as (s' & Hrun & Hh & Hsrc & Hn & Hlog).
    { intros i Hi. specialize (Hnz (S i) ltac:(lia)).
      change (source (round_end s)) with (source s).
      change (nconv (round_end s)) with (S (S (S (nconv s)))).
      replace (S (S (S (nconv s))) + 3 * i)%nat with (nconv s + 3 * S i)%nat by lia.
      exact Hnz. }
    exists s'. split; [exact Hrun | ]. split; [exact Hh | ].
    change (source (round_end s)) with (source s) in Hsrc, Hlog.
    change (nconv (round_end s)) with (S (S (S (nconv s)))) in Hn, Hlog.
    split; [exact Hsrc | ]. split; [lia | ].
    rewrite Hlog, history_round_end, <- app_assoc. f_equal.
    cbn [seq flat_map]. replace (nconv s + 3 * 0)%nat with (nconv s) by lia. f_equal.
    rewrite flat_map_seq_shift.
    apply flat_map_ext. intros i. f_equal. lia.
Qed.

Lemma main_run (rounds fuel : nat) (src : nat -> Z) :
  (104 <= fuel)%nat ->
  samples_nonzero src 0 rounds ->
  exists s : avr,
    main rounds fuel (reset src) = Done tt s
    /\ at_loop_head s
    /\ history s = setup_probe :: flat_map (fun i => round_log src (3 * i)) (seq 0 rounds).
Proof.
  intros Hf Hnz. unfold main, bind.
  change (or_assign DDRA (_BV PORTA7) (reset src))
    with (Done tt (Avr 0 0 0 0 128 0 None false 0 src [setup_probe])).
  cbv beta iota.
  destruct (forever_run fuel Hf rounds (Avr 0 0 0 0 128 0 None false 0 src [setup_probe]))
    as (s & Hrun & Hh & _ & _ & Hlog).
  - repeat split; simpl; lia.
  - exact Hnz.
  - exists s. split; [exact Hrun | ]. split; [exact Hh | ]. exact Hlog.
Qed.

(** ** The converter between calls *)

Lemma bind_Done_inv {A B} (m : M A) (k : A -> M B) (s s' : avr) (b : B) :
  bind m k s = Done b s' ->
  exists (a : A) (s1 : avr), m s = Done a s1 /\ k a s1 = Done b s'.
Proof.
  unfold bind. destruct (m s) as [a s1 | f s1]; intros H.
  - exists a, s1. split; [reflexivity | exact H].
  - discriminate H.
Qed.

Lemma ADEN_masked (v : Z) :
  Z.testbit (Z.land (Z.land v (Z.lnot (_BV ADEN))) 255) ADEN = false.
Proof. rewrite !Z.land_spec. change (Z.testbit (Z.lnot (_BV ADEN)) ADEN) with false.
  rewrite andb_false_r. reflexivity. Qed.

Lemma write_ADCSRA_disable (v : Z) (s : avr) :
  Z.testbit v ADEN = false -> adc_off (write_ADCSRA v s).
Proof.
  intros Hv. unfold write_ADCSRA. rewrite Hv. cbn [negb]. split.
  - unfold adc_enabled. cbn [log set_trace set_adc adcsra].
    rewrite Z.land_spec, Hv. reflexivity.
  - reflexivity.
Qed.

Lemma and_not_assign_ADEN (s s' : avr) :
  and_not_assign ADCSRA (_BV ADEN) s = Done tt s' -> adc_off s'.
Proof.
  unfold and_not_assign, bind, rd, wr, load, store. intros H.
  injection H as <-. apply write_ADCSRA_disable, ADEN_masked.
Qed.

Lemma readVccVoltage_leaves_adc_off (fuel : nat) (s s' : avr) (v : Z) :
  readVccVoltage fuel s = Done v s' -> adc_off s'.
Proof.
  unfold readVccVoltage. intros H.
  do 10 (apply bind_Done_inv in H; destruct H as (? & ? & _ & H)).
  apply bind_Done_inv in H. destruct H as ([] & s1 & Hoff & H).
  injection H as _ <-. exact (and_not_assign_ADEN _ _ Hoff).
Qed.

(** With the converter off, a write to PORTA, a register read and a delay
    leave the converter alone and log entries that show it disabled. *)
Lemma or_assign_PORTA_adc_off (bits : Z) (s : avr) :
  adc_off s ->
  exists (s' : avr) (p : probe),
    or_assign PORTA bits s = Done tt s' /\ adc_off s' /\ trace s' = p :: trace s
    /\ adc_on p = false.
Proof.
  intros [He Hb]. unfold or_assign, bind, rd, wr, load, store.
  rewrite !(tick_idle 1 s Hb).
  eexists. eexists. split; [reflexivity | ]. split; [split; [exact He | exact Hb] | ].
  split; [reflexivity | exact He].
Qed.

Lemma and_not_assign_PORTA_adc_off (bits : Z) (s : avr) :
  adc_off s ->
  exists (s' : avr) (p : probe),
    and_not_assign PORTA bits s = Done tt s' /\ adc_off s' /\ trace s' = p :: trace s
    /\ adc_on p = false.
Proof.
  intros [He Hb]. unfold and_not_assign, bind, rd, wr, load, store.
  rewrite !(tick_idle 1 s Hb).
  eexists. eexists. split; [reflexivity | ]. split; [split; [exact He | exact Hb] | ].
  split; [reflexivity | exact He].
Qed.

Lemma _delay_ms_adc_off (ms : Z) (s : avr) :
  adc_off s ->
  exists (s' : avr) (p : probe),
    _delay_ms ms s = Done tt s' /\ adc_off s' /\ trace s' = p :: trace s
    /\ adc_on p = false.
Proof.
  intros [He Hb]. unfold _delay_ms, pause.
  rewrite (tick_idle _ (log (Delay ms) s) Hb).
  eexists. eexists. split; [reflexivity | ]. split; [split; [exact He | exact Hb] | ].
  split; [reflexivity | exact He].
Qed.

Lemma blink_adc_off (s : avr) :
  adc_off s ->
  exists (s' : avr) (added : list probe),
    blink s = Done tt s' /\ adc_off s' /\ trace s' = added ++ trace s
    /\ Forall (fun p => adc_on p = false) added.
Proof.
  intros Hs. unfold blink, bind.
  destruct (or_assign_PORTA_adc_off (_BV PORTA7) s Hs) as (s1 & p1 & -> & Hs1 & Ht1 & Hp1).
  destruct (_delay_ms_adc_off 250 s1 Hs1) as (s2 & p2 & -> & Hs2 & Ht2 & Hp2).
  destruct (and_not_assign_PORTA_adc_off (_BV PORTA7) s2 Hs2) as (s3 & p3 & -> & Hs3 & Ht3 & Hp3).
  destruct (_delay_ms_adc_off 250 s3 Hs3) as (s4 & p4 & -> & Hs4 & Ht4 & Hp4).
  exists s4, [p4; p3; p2; p1].
  split; [reflexivity | ]. split; [exact Hs4 | ]. split.
  - rewrite Ht4, Ht3, Ht2, Ht1. reflexivity.
  - repeat (apply Forall_cons; [assumption | ]). apply Forall_nil.
Qed.

Lemma for_lt_blink_adc_off (n : nat) :
  forall s : avr,
    adc_off s ->
    exists (s' : avr) (added : list probe),
      for_lt n blink s = Done tt s' /\ adc_off s' /\ trace s' = added ++ trace s
      /\ Forall (fun p => adc_on p = false) added.
Proof.
  induction n as [| n IH]; intros s Hs.
  - exists s, []. repeat split; try apply Hs. constructor.
  - destruct (blink_adc_off s Hs) as (s1 & a1 & Hrun1 & Hoff1 & Htr1 & Hall1).
    destruct (IH s1 Hoff1) as (s2 & a2 & Hrun2 & Hoff2 & Htr2 & Hall2).
    exists s2, (a2 ++ a1). cbn [for_lt]. unfold bind. rewrite Hrun1.
    split; [exact Hrun2 | ]. split; [exact Hoff2 | ]. split.
    + rewrite Htr2, Htr1. apply app_assoc.
    + apply Forall_app. split; assumption.
Qed.

Lemma indicate_adc_off (d : Z) (s : avr) :
  adc_off s ->
  exists s' : avr,
    indicate d s = Done tt s' /\ adc_off s'
    /\ Forall (fun p => adc_on p = false) (emitted (indicate d) s).
Proof.
  intros Hs. unfold emitted, indicate, bind.
  destruct (for_lt_blink_adc_off (Z.to_nat (u8 (d / 10))) s Hs)
    as (s1 & a1 & Hrun1 & Hoff1 & Htr1 & Hall1).
  rewrite Hrun1. unfold _delay_ms. cbn [final_state].
  exists (pause 1000 s1).
  assert (Hp : pause 1000 s1 = log (Delay 1000) s1).
  { unfold pause. apply tick_idle. apply Hoff1. }
  rewrite Hp. split; [reflexivity | ]. split; [exact Hoff1 | ].
  rewrite (since_app (Probe (Delay 1000) (led_lit s1) (adc_enabled s1) :: a1)).
  - apply Forall_rev. constructor; [apply Hoff1 | exact Hall1].
  - cbn [log set_trace trace]. rewrite Htr1. reflexivity.
Qed.

(** Prove a property of every entry of an explicit list. *)
Ltac each_entry tac :=
  repeat (apply Forall_cons; [tac | ]); apply Forall_nil.

Lemma Forall_concat_repeat {A} (P : A -> Prop) (l : list A) (n : nat) :
  Forall P l -> Forall P (concat (repeat l n)).
Proof.
  intros Hl. induction n as [| n IH]; [constructor | ].
  cbn [repeat concat]. apply Forall_app. split; assumption.
Qed.

Lemma emitted_loop_body (fuel : nat) (s : avr) :
  at_loop_head s -> (104 <= fuel)%nat -> raw_sample s <> 0 ->
  emitted (loop_body fuel) s = round_log (source s) (nconv s).
Proof.
  intros Hs Hf Hraw. unfold emitted.
  rewrite (loop_body_run fuel s Hs Hf Hraw). cbn [final_state].
  rewrite (since_app (rev (round_log (source s) (nconv s)))); [apply rev_involutive | ].
  reflexivity.
Qed.

Lemma emitted_indicate (d : Z) (s : avr) :
  at_loop_head s ->
  emitted (indicate d) s = concat (repeat pulse_log (Z.to_nat (u8 (d / 10)))) ++ [pause_probe].
Proof.
  intros Hs. unfold emitted. rewrite (indicate_run d s Hs). cbn [final_state].
  rewrite (since_app (pause_probe :: concat (repeat (rev pulse_log) (Z.to_nat (u8 (d / 10)))))).
  - cbn [rev]. rewrite rev_concat_repeat. reflexivity.
  - reflexivity.
Qed.

Lemma blink_count_round_log (src : nat -> Z) (n : nat) :
  Z.of_nat (blink_count (round_log src n)) = decivolts (src (S (S n)) mod 1024) / 10.
Proof.
  unfold round_log. rewrite !blink_count_app, blink_count_pulses.
  change (blink_count (call_log false n src)) with 0%nat.
  change (blink_count [pause_probe]) with 0%nat.
  rewrite Nat.add_0_l, Nat.add_0_r, Z2Nat.id; [reflexivity | ].
  apply Z.div_pos; [apply decivolts_range | lia].
Qed.

(** The blink count of an iteration, for a given reading. *)
Lemma blink_count_indicate (d : Z) (s : avr) :
  at_loop_head s -> 0 <= d < 256 ->
  Z.of_nat (blink_count (emitted (indicate d) s)) = d / 10.
Proof.
  intros Hs Hd. rewrite (emitted_indicate d s Hs), blink_count_app, blink_count_pulses.
  change (blink_count [pause_probe]) with 0%nat. rewrite Nat.add_0_r.
  assert (Hq : 0 <= d / 10 < 256).
  { split; [apply Z.div_pos; lia | apply Z.div_lt_upper_bound; lia]. }
  unfold u8. rewrite Z.mod_small by exact Hq. apply Z2Nat.id. lia.
Qed.

(** Within the legend of the file header: [n] blinks for a reading of
    [n] volts and up to nine tenths, for every [n] up to 25. *)
Lemma blinks_per_whole_volt (n d : Z) (s : avr) :
  at_loop_head s -> 0 <= n -> 10 * n <= d < 10 * n + 10 -> d < 256 ->
  Z.of_nat (blink_count (emitted (indicate d) s)) = n.
Proof.
  intros Hs Hn Hd Hlt. rewrite (blink_count_indicate d s Hs) by lia.
  symmetry. apply Z.div_unique with (r := d - 10 * n); lia.
Qed.

(** * The claims *)

(** ** C1 *)

(** C1, as stated, fails: a converter that reads 1 makes the quotient 11264,
    which the cast to [uint8_t] turns into 0. *)
Lemma C1_cast_wraps_at_raw_1 :
  raw_sample (reset (steady 1)) = 1
  /\ returned (readVccVoltage 104 (reset (steady 1))) = Some 0
  /\ 11264 / 1 <> 0.
Proof.
  split; [reflexivity | ]. split; [vm_compute; reflexivity | ].
  vm_compute. discriminate.
Qed.

(** C1, amended: for every raw sample in [1, 1023] read from an idle
    converter, [readVccVoltage] returns floor(11264 / raw_sample) reduced
    modulo 256 by the cast to [uint8_t]; the raw sample is the content of
    ADCH:ADCL; and from a raw sample of 45 on the value returned is
    floor(11264 / raw_sample) itself. *)
Theorem C1_value_returned (fuel : nat) (s : avr) :
  idle s -> (104 <= fuel)%nat -> 1 <= raw_sample s <= 1023 ->
  exists s' : avr,
    readVccVoltage fuel s = Done ((11264 / raw_sample s) mod 256) s'
    /\ adch s' * 256 + adcl s' = raw_sample s
    /\ (45 <= raw_sample s -> (11264 / raw_sample s) mod 256 = 11264 / raw_sample s).
Proof.
  intros Hs Hf Hraw. exists (sampled s).
  rewrite (readVccVoltage_idle fuel s Hs Hf).
  rewrite (proj2 (Z.eqb_neq _ _)) by lia.
  split; [reflexivity | ]. split.
  - cbn [adch adcl sampled]. rewrite Z.mul_comm. symmetry. apply Z.div_mod. lia.
  - intros H45. exact (decivolts_exact _ H45).
Qed.

(** The amended C1 at a converter that reads 225: the call returns 50. *)
Lemma C1_value_returned_at_raw_225 :
  idle (reset (steady 225))
  /\ (104 <= 104)%nat
  /\ 1 <= raw_sample (reset (steady 225)) <= 1023
  /\ exists s' : avr,
       readVccVoltage 104 (reset (steady 225))
         = Done ((11264 / raw_sample (reset (steady 225))) mod 256) s'
       /\ adch s' * 256 + adcl s' = raw_sample (reset (steady 225))
       /\ (45 <= raw_sample (reset (steady 225)) ->
           (11264 / raw_sample (reset (steady 225))) mod 256
             = 11264 / raw_sample (reset (steady 225))).
Proof.
  assert (Hi : idle (reset (steady 225))) by (split; simpl; [reflexivity | lia]).
  assert (Hf : (104 <= 104)%nat) by lia.
  assert (Hr : 1 <= raw_sample (reset (steady 225)) <= 1023) by (vm_compute; split; discriminate).
  split; [exact Hi | ]. split; [exact Hf | ]. split; [exact Hr | ].
  exact (C1_value_returned 104 (reset (steady 225)) Hi Hf Hr).
Defined.

(** ** C2 *)

(** C2: nothing guards the division of [readVccVoltage].  From an idle
    converter and with fuel for the polling loops, a nonzero raw sample makes
    the call return the quotient (cast to 8 bits), and a raw sample of zero
    makes it reach the division by zero. *)
Theorem C2_division_unguarded (fuel : nat) (s : avr) :
  idle s -> (104 <= fuel)%nat ->
  (raw_sample s <> 0 ->
   exists s' : avr, readVccVoltage fuel s = Done (u8 (11 * 1024 / raw_sample s)) s')
  /\ (raw_sample s = 0 ->
      exists s' : avr, readVccVoltage fuel s = Fault DivisionByZero s').
Proof.
  intros Hs Hf. rewrite (readVccVoltage_idle fuel s Hs Hf). split; intros Hraw.
  - rewrite (proj2 (Z.eqb_neq _ _) Hraw). exists (sampled s). reflexivity.
  - rewrite Hraw. exists (converted s). reflexivity.
Qed.

(** C2 at a converter that reads 0: the first call after reset divides by zero. *)
Lemma C2_division_by_zero_reached :
  idle (reset (steady 0))
  /\ (104 <= 104)%nat
  /\ raw_sample (reset (steady 0)) = 0
  /\ exists s' : avr, readVccVoltage 104 (reset (steady 0)) = Fault DivisionByZero s'.
Proof.
  assert (Hi : idle (reset (steady 0))) by (split; simpl; [reflexivity | lia]).
  assert (Hf : (104 <= 104)%nat) by lia.
  split; [exact Hi | ]. split; [exact Hf | ]. split; [reflexivity | ].
  exact (proj2 (C2_division_unguarded 104 (reset (steady 0)) Hi Hf) eq_refl).
Defined.

(** ** C3 *)

(** C3, as stated, fails: the raw samples 44 < 45 give 0 and 250. *)
Lemma C3_wraps_between_44_and_45 :
  returned (readVccVoltage 104 (reset (steady 44))) = Some 0
  /\ returned (readVccVoltage 104 (reset (steady 45))) = Some 250
  /\ 44 < 45
  /\ ~ (0 >= 250).
Proof.
  split; [vm_compute; reflexivity | ]. split; [vm_compute; reflexivity | ].
  split; lia.
Qed.

(** C3, amended: over the raw samples 45..1023 the value returned by
    [readVccVoltage] is non-increasing: for 45 <= a < b <= 1023 the value
    returned for a is at least the value returned for b. *)
Theorem C3_non_increasing_from_45 (fuel : nat) (sa sb : avr) :
  idle sa -> idle sb -> (104 <= fuel)%nat ->
  45 <= raw_sample sa -> raw_sample sa < raw_sample sb -> raw_sample sb <= 1023 ->
  exists (va vb : Z) (sa' sb' : avr),
    readVccVoltage fuel sa = Done va sa'
    /\ readVccVoltage fuel sb = Done vb sb'
    /\ va >= vb.
Proof.
  intros Ha Hb Hf Hlo Hlt Hhi.
  exists (decivolts (raw_sample sa)), (decivolts (raw_sample sb)), (sampled sa), (sampled sb).
  rewrite (readVccVoltage_idle fuel sa Ha Hf), (readVccVoltage_idle fuel sb Hb Hf).
  rewrite !(proj2 (Z.eqb_neq _ _)) by lia.
  split; [reflexivity | ]. split; [reflexivity | ].
  rewrite !decivolts_exact by lia.
  apply Z.le_ge. apply Z.div_le_compat_l; lia.
Qed.

(** The amended C3 at the raw samples 225 < 375. *)
Lemma C3_non_increasing_225_375 :
  exists (va vb : Z) (sa' sb' : avr),
    readVccVoltage 104 (reset (steady 225)) = Done va sa'
    /\ readVccVoltage 104 (reset (steady 375)) = Done vb sb'
    /\ va >= vb.
Proof.
  apply (C3_non_increasing_from_45 104 (reset (steady 225)) (reset (steady 375))).
  - split; simpl; [reflexivity | lia].
  - split; simpl; [reflexivity | lia].
  - lia.
  - vm_compute. discriminate.
  - vm_compute. reflexivity.
  - vm_compute. discriminate.
Defined.

(** ** C9 *)

(** C9: for every raw sample in [1, 1023] read from an idle converter,
    [readVccVoltage] returns a value below 256. *)
Theorem C9_value_fits_8_bits (fuel : nat) (s : avr) :
  idle s -> (104 <= fuel)%nat -> 1 <= raw_sample s <= 1023 ->
  exists (v : Z) (s' : avr), readVccVoltage fuel s = Done v s' /\ 0 <= v < 256.
Proof.
  intros Hs Hf Hraw. exists (decivolts (raw_sample s)), (sampled s).
  rewrite (readVccVoltage_idle fuel s Hs Hf).
  rewrite (proj2 (Z.eqb_neq _ _)) by lia.
  split; [reflexivity | apply decivolts_range].
Qed.

(** C9 at a converter that reads 1, where the quotient itself is 11264. *)
Lemma C9_value_fits_8_bits_at_raw_1 :
  exists (v : Z) (s' : avr),
    readVccVoltage 104 (reset (steady 1)) = Done v s' /\ 0 <= v < 256.
Proof.
  apply (C9_value_fits_8_bits 104 (reset (steady 1))).
  - split; simpl; [reflexivity | lia].
  - lia.
  - vm_compute. split; discriminate.
Defined.

(** ** C4 *)

(** C4: the file header promises five blinks from 5 V up, but nothing caps
    the count.  A raw sample of 187 reads as 60 decivolts, and the iteration
    blinks six times. *)
Theorem C4_six_blinks_at_raw_187 :
  let s := final_state (or_assign DDRA (_BV PORTA7) (reset (steady 187))) in
  at_loop_head s
  /\ returned (readVccVoltage 104 s) = Some 60
  /\ 60 >= 50
  /\ blink_count (emitted (loop_body 104) s) = 6%nat.
Proof.
  cbv zeta. split; [repeat split; simpl; lia | ].
  split; [vm_compute; reflexivity | ]. split; [lia | ].
  vm_compute. reflexivity.
Qed.

(** ** C5 *)

(** C5: an iteration begun at the loop head with a nonzero raw sample blinks
    decivolts / 10 times, decivolts being the value [readVccVoltage]
    returned; a reading of [d] gives [d / 10] blinks, so 29 gives two and 30
    gives three, and the count of [d] differs from that of [d - 1] exactly
    when [d] is a multiple of 10. *)
Theorem C5_blink_count_is_decivolts_div_10 (fuel : nat) (s : avr) :
  at_loop_head s -> (104 <= fuel)%nat -> raw_sample s <> 0 ->
  (exists (d : Z) (s1 s2 : avr),
      readVccVoltage fuel s = Done d s1
      /\ loop_body fuel s = Done tt s2
      /\ Z.of_nat (blink_count (emitted (loop_body fuel) s)) = d / 10)
  /\ (forall d : Z, 0 <= d < 256 ->
        Z.of_nat (blink_count (emitted (indicate d) s)) = d / 10)
  /\ blink_count (emitted (indicate 29) s) = 2%nat
  /\ blink_count (emitted (indicate 30) s) = 3%nat
  /\ (forall d : Z, 1 <= d < 256 ->
        (blink_count (emitted (indicate d) s) <> blink_count (emitted (indicate (d - 1)) s)
         <-> d mod 10 = 0)).
Proof.
  intros Hs Hf Hraw. split; [ | split; [ | split; [ | split]]].
  - exists (decivolts (raw_sample s)), (sampled s), (round_end s).
    rewrite (readVccVoltage_idle fuel s (proj1 Hs) Hf), (proj2 (Z.eqb_neq _ _) Hraw).
    split; [reflexivity | ]. split; [exact (loop_body_run fuel s Hs Hf Hraw) | ].
    rewrite (emitted_loop_body fuel s Hs Hf Hraw). apply blink_count_round_log.
  - intros d Hd. exact (blink_count_indicate d s Hs Hd).
  - rewrite (emitted_indicate 29 s Hs). reflexivity.
  - rewrite (emitted_indicate 30 s Hs). reflexivity.
  - intros d Hd.
    pose proof (blink_count_indicate d s Hs ltac:(lia)) as H1.
    pose proof (blink_count_indicate (d - 1) s Hs ltac:(lia)) as H2.
    pose proof (Z.div_mod d 10 ltac:(lia)) as Hdm.
    pose proof (Z.mod_pos_bound d 10 ltac:(lia)) as Hm.
    split.
    + intros Hne.
      destruct (Z.eq_dec (d mod 10) 0) as [Hz | Hnz]; [exact Hz | exfalso].
      apply Hne. apply Nat2Z.inj. rewrite H1, H2.
      apply Z.div_unique with (r := d mod 10 - 1); lia.
    + intros Hz Heq. rewrite Heq, H2 in H1.
      assert (Hq : (d - 1) / 10 = d / 10 - 1).
      { symmetry. apply Z.div_unique with (r := 9); lia. }
      lia.
Qed.

(** C5 at a converter that reads 375: the first iteration after the setup. *)
Lemma C5_three_blinks_at_raw_375 :
  let s := final_state (or_assign DDRA (_BV PORTA7) (reset (steady 375))) in
  at_loop_head s
  /\ (104 <= 104)%nat
  /\ raw_sample s <> 0
  /\ exists (d : Z) (s1 s2 : avr),
       readVccVoltage 104 s = Done d s1
       /\ loop_body 104 s = Done tt s2
       /\ Z.of_nat (blink_count (emitted (loop_body 104) s)) = d / 10.
Proof.
  cbv zeta.
  assert (Hs : at_loop_head (final_state (or_assign DDRA (_BV PORTA7) (reset (steady 375)))))
    by (repeat split; simpl; lia).
  assert (Hf : (104 <= 104)%nat) by lia.
  assert (Hr : raw_sample (final_state (or_assign DDRA (_BV PORTA7) (reset (steady 375)))) <> 0)
    by (vm_compute; discriminate).
  split; [exact Hs | ]. split; [exact Hf | ]. split; [exact Hr | ].
  exact (proj1 (C5_blink_count_is_decivolts_div_10 104 _ Hs Hf Hr)).
Defined.

(** ** C6 *)

(** C6: whenever [readVccVoltage] returns, from whatever hardware state it
    was called in and whatever was sampled, ADEN is clear; through the rest
    of the iteration every log entry shows the converter disabled, and it is
    still disabled when the next call begins.  It is also disabled from reset
    to the first call. *)
Theorem C6_converter_disabled_between_calls (fuel : nat) (s s1 : avr) (v : Z) :
  readVccVoltage fuel s = Done v s1 ->
  Z.testbit (adcsra s1) ADEN = false
  /\ (forall d : Z,
        exists s2 : avr,
          indicate d s1 = Done tt s2
          /\ Z.testbit (adcsra s2) ADEN = false
          /\ Forall (fun p => adc_on p = false) (emitted (indicate d) s1))
  /\ (forall src : nat -> Z,
        Z.testbit (adcsra (reset src)) ADEN = false
        /\ Forall (fun p => adc_on p = false)
                  (emitted (or_assign DDRA (_BV PORTA7)) (reset src))).
Proof.
  intros Hrun. pose proof (readVccVoltage_leaves_adc_off fuel s s1 v Hrun) as Hoff.
  split; [apply Hoff | ]. split.
  - intros d. destruct (indicate_adc_off d s1 Hoff) as (s2 & Hind & Hoff2 & Hall).
    exists s2. split; [exact Hind | ]. split; [apply Hoff2 | exact Hall].
  - intros src. split; [reflexivity | ].
    repeat constructor.
Qed.

(** C6 at the first call after reset, with a converter that reads 225. *)
Lemma C6_converter_disabled_at_raw_225 :
  exists s1 : avr,
    readVccVoltage 104 (reset (steady 225)) = Done 50 s1
    /\ Z.testbit (adcsra s1) ADEN = false.
Proof.
  exists (final_state (readVccVoltage 104 (reset (steady 225)))).
  split; [vm_compute; reflexivity | ].
  exact (proj1 (C6_converter_disabled_between_calls
                  104 (reset (steady 225))
                  (final_state (readVccVoltage 104 (reset (steady 225)))) 50
                  ltac:(vm_compute; reflexivity))).
Defined.

(** ** C7 *)

(** C7: line 66 sets ADSC in the write that sets ADEN, so a conversion is
    started before the 1 ms delay, and the call starts three conversions:
    two are discarded and the third is read. *)
Theorem C7_conversion_started_before_settling_delay :
  let log := map what (emitted (readVccVoltage 104) (reset three_samples)) in
  log = [ Write ADMUX 33; Write ADCSRA 195; Start 0; Delay 1; Finish 0 300;
          Write ADCSRA 195; Start 1; Finish 1 250;
          Write ADCSRA 195; Start 2; Finish 2 225;
          Write ADCSRA 3 ]
  /\ conversions (before_first_delay log) = 1%nat
  /\ conversions log = 3%nat
  /\ returned (readVccVoltage 104 (reset three_samples)) = Some (11264 / 225).
Proof. cbv zeta. repeat split; vm_compute; reflexivity. Qed.

(** The same holds of every call from an idle converter: its log is
    [call_log], whose first conversion starts ahead of the delay. *)
Lemma emitted_readVccVoltage (fuel : nat) (s : avr) :
  idle s -> (104 <= fuel)%nat -> raw_sample s <> 0 ->
  emitted (readVccVoltage fuel) s = call_log (led_lit s) (nconv s) (source s)
  /\ before_first_delay (map what (call_log (led_lit s) (nconv s) (source s)))
     = [Write ADMUX 33; Write ADCSRA 195; Start (nconv s)]
  /\ conversions (map what (call_log (led_lit s) (nconv s) (source s))) = 3%nat.
Proof.
  intros Hs Hf Hraw. split; [ | split; reflexivity].
  unfold emitted. rewrite (readVccVoltage_idle fuel s Hs Hf), (proj2 (Z.eqb_neq _ _) Hraw).
  cbn [final_state].
  rewrite (since_app (rev (call_log (led_lit s) (nconv s) (source s)))).
  - apply rev_involutive.
  - unfold call_log. rewrite rev_app_distr. reflexivity.
Qed.

(** ** C8 *)

(** C8: started from reset and run for any number of iterations over
    nonzero samples, [main] logs the write that makes PA7 an output and then,
    iteration after iteration, the sampling call, decivolts / 10 pulses (PA7
    high, 250 ms, PA7 low, 250 ms) and one pause of 1000 ms; an iteration
    whose count is zero logs the call and the pause only. *)
Theorem C8_iteration_pattern (rounds fuel : nat) (src : nat -> Z) :
  (104 <= fuel)%nat ->
  samples_nonzero src 0 rounds ->
  exists s : avr,
    main rounds fuel (reset src) = Done tt s
    /\ history s =
         setup_probe
           :: flat_map
                (fun i : nat =>
                   call_log false (3 * i) src
                     ++ concat (repeat pulse_log
                                  (Z.to_nat (decivolts (src (S (S (3 * i))) mod 1024) / 10)))
                     ++ [pause_probe])
                (seq 0 rounds)
    /\ map what pulse_log = [Write PORTA 128; Delay 250; Write PORTA 0; Delay 250]
    /\ what pause_probe = Delay 1000
    /\ (forall i : nat,
          decivolts (src (S (S (3 * i))) mod 1024) / 10 = 0 ->
          round_log src (3 * i) = call_log false (3 * i) src ++ [pause_probe]).
Proof.
  intros Hf Hnz.
  destruct (main_run rounds fuel src Hf Hnz) as (s & Hrun & _ & Hlog).
  exists s. split; [exact Hrun | ]. split; [exact Hlog | ].
  split; [reflexivity | ]. split; [reflexivity | ].
  intros i Hz. unfold round_log. rewrite Hz. reflexivity.
Qed.

(** C8 at a converter that always reads 225: two iterations of five pulses. *)
Lemma C8_iteration_pattern_at_raw_225 :
  exists s : avr,
    main 2 104 (reset (steady 225)) = Done tt s
    /\ map what (history s) =
         Write DDRA 128
           :: map what (call_log false 0 (steady 225))
           ++ [ Write PORTA 128; Delay 250; Write PORTA 0; Delay 250;
                Write PORTA 128; Delay 250; Write PORTA 0; Delay 250;
                Write PORTA 128; Delay 250; Write PORTA 0; Delay 250;
                Write PORTA 128; Delay 250; Write PORTA 0; Delay 250;
                Write PORTA 128; Delay 250; Write PORTA 0; Delay 250;
                Delay 1000 ]
           ++ map what (call_log false 3 (steady 225))
           ++ [ Write PORTA 128; Delay 250; Write PORTA 0; Delay 250;
                Write PORTA 128; Delay 250; Write PORTA 0; Delay 250;
                Write PORTA 128; Delay 250; Write PORTA 0; Delay 250;
                Write PORTA 128; Delay 250; Write PORTA 0; Delay 250;
                Write PORTA 128; Delay 250; Write PORTA 0; Delay 250;
                Delay 1000 ].
Proof.
  destruct (C8_iteration_pattern 2 104 (steady 225)) as (s & Hrun & Hlog & _).
  - lia.
  - intros i _. vm_compute. discriminate.
  - exists s. split; [exact Hrun | ]. rewrite Hlog. vm_compute. reflexivity.
Defined.

(** ** C10 *)

(** C10: started from reset and run for any number of iterations over
    nonzero samples, [main] ends every iteration with PA7 low, and the log
    shows the LED lit only at the write that turns it on and through the
    250 ms that follow: it is dark at every entry of the 1000 ms pause and of
    the sampling call. *)
Theorem C10_pin_low_between_blink_cycles (rounds fuel : nat) (src : nat -> Z) :
  (104 <= fuel)%nat ->
  samples_nonzero src 0 rounds ->
  exists s : avr,
    main rounds fuel (reset src) = Done tt s
    /\ Z.testbit (porta s) PORTA7 = false
    /\ led_lit s = false
    /\ Forall (fun p => led p = true -> what p = Write PORTA 128 \/ what p = Delay 250)
              (history s).
Proof.
  intros Hf Hnz.
  destruct (main_run rounds fuel src Hf Hnz) as (s & Hrun & Hhead & Hlog).
  exists s. split; [exact Hrun | ].
  split; [destruct Hhead as [_ [_ Hp]]; rewrite Hp; reflexivity | ].
  split; [exact (at_loop_head_dark s Hhead) | ].
  rewrite Hlog. apply Forall_cons; [intros H; discriminate H | ].
  apply Forall_flat_map, Forall_forall. intros i _.
  unfold round_log. apply Forall_app. split; [ | apply Forall_app; split].
  - each_entry ltac:(intros H; discriminate H).
  - apply Forall_concat_repeat.
    each_entry ltac:(intros H;
                     first [discriminate H | left; reflexivity | right; reflexivity]).
  - each_entry ltac:(intros H; discriminate H).
Qed.

(** C10 at a converter that always reads 375, over three iterations. *)
Lemma C10_pin_low_at_raw_375 :
  exists s : avr,
    main 3 104 (reset (steady 375)) = Done tt s
    /\ Z.testbit (porta s) PORTA7 = false
    /\ led_lit s = false
    /\ Forall (fun p => led p = true -> what p = Write PORTA 128 \/ what p = Delay 250)
              (history s).
Proof.
  apply (C10_pin_low_between_blink_cycles 3 104 (steady 375)).
  - lia.
  - intros i _. vm_compute. discriminate.
Defined.

(** * Further properties of the code *)

(** ** The sampling call and the LED pin *)

Lemma pins_tick (c : Z) (s : avr) : pins (tick c s) = pins s.
Proof.
  unfold tick. destruct (busy s) as [todo | ]; [ | reflexivity].
  destruct (todo <=? c); reflexivity.
Qed.

Lemma pins_write_ADCSRA (v : Z) (s : avr) : pins (write_ADCSRA v s) = pins s.
Proof.
  unfold write_ADCSRA.
  destruct (negb (Z.testbit v ADEN)); [reflexivity | ].
  destruct (busy s); [reflexivity | ].
  destruct (Z.testbit v ADSC); reflexivity.
Qed.

Lemma keeps_pins_ret {A} (a : A) : keeps_pins (ret a).
Proof. intros s. reflexivity. Qed.

Lemma keeps_pins_raise {A} (f : fault) : keeps_pins (@raise A f).
Proof. intros s. reflexivity. Qed.

Lemma keeps_pins_bind {A B} (m : M A) (k : A -> M B) :
  keeps_pins m -> (forall a : A, keeps_pins (k a)) -> keeps_pins (bind m k).
Proof.
  intros Hm Hk s. unfold bind. specialize (Hm s).
  destruct (m s) as [a s1 | f s1]; cbn [final_state] in Hm.
  - rewrite (Hk a s1). exact Hm.
  - exact Hm.
Qed.

Lemma keeps_pins_rd (r : reg) : keeps_pins (rd r).
Proof. intros s. unfold rd, load. cbn [final_state]. apply pins_tick. Qed.

Lemma keeps_pins_wr_ADMUX (v : Z) : keeps_pins (wr ADMUX v).
Proof.
  intros s. unfold wr, store. cbn [final_state].
  change (pins (log (Write ADMUX (Z.land v 255)) (set_admux (Z.land v 255) (tick 1 s))))
    with (pins (tick 1 s)).
  apply pins_tick.
Qed.

Lemma keeps_pins_wr_ADCSRA (v : Z) : keeps_pins (wr ADCSRA v).
Proof.
  intros s. unfold wr, store. cbn [final_state].
  rewrite pins_write_ADCSRA. apply pins_tick.
Qed.

Lemma keeps_pins_delay (ms : Z) : keeps_pins (_delay_ms ms).
Proof.
  intros s. unfold _delay_ms, pause. cbn [final_state]. rewrite pins_tick. reflexivity.
Qed.

Lemma keeps_pins_udiv (a b : Z) : keeps_pins (udiv a b).
Proof. unfold udiv. destruct (b =? 0); [apply keeps_pins_raise | apply keeps_pins_ret]. Qed.

Lemma keeps_pins_while_set (fuel : nat) (r : reg) (bit : Z) : keeps_pins (while_set fuel r bit).
Proof.
  induction fuel as [| fuel IH]; cbn [while_set].
  - apply keeps_pins_raise.
  - apply keeps_pins_bind; [apply keeps_pins_rd | ].
    intros v. destruct (Z.land v (_BV bit) =? 0); [apply keeps_pins_ret | exact IH].
Qed.

Lemma keeps_pins_readVccVoltage (fuel : nat) : keeps_pins (readVccVoltage fuel).
Proof.
  unfold readVccVoltage, or_assign, and_not_assign.
  repeat first
    [ apply keeps_pins_bind; [ | intros ? ]
    | apply keeps_pins_rd
    | apply keeps_pins_wr_ADMUX
    | apply keeps_pins_wr_ADCSRA
    | apply keeps_pins_delay
    | apply keeps_pins_while_set
    | apply keeps_pins_udiv
    | apply keeps_pins_ret ].
Qed.

(** X1: a call of [readVccVoltage], from any hardware state and whether it
    returns, divides by zero or runs out of fuel, leaves DDRA and PORTA, and
    so the LED, as they were. *)
Theorem readVccVoltage_leaves_led_pin (fuel : nat) (s : avr) :
  ddra (final_state (readVccVoltage fuel s)) = ddra s
  /\ porta (final_state (readVccVoltage fuel s)) = porta s
  /\ led_lit (final_state (readVccVoltage fuel s)) = led_lit s.
Proof.
  pose proof (keeps_pins_readVccVoltage fuel s) as H. unfold pins in H.
  injection H as Hd Hp. unfold led_lit. rewrite Hd, Hp. repeat split.
Qed.

(** ** The indicator part and the rest of the hardware *)

Lemma only_PA7_differs_refl (s : avr) : only_PA7_differs s s.
Proof. repeat split. Qed.

Lemma only_PA7_differs_trans (s1 s2 s3 : avr) :
  only_PA7_differs s1 s2 -> only_PA7_differs s2 s3 -> only_PA7_differs s1 s3.
Proof.
  intros (A1 & A2 & A3 & A4 & A5 & A6 & A7 & A8) (B1 & B2 & B3 & B4 & B5 & B6 & B7 & B8).
  repeat split; try congruence.
  intros k Hk. rewrite (B8 k Hk). apply A8, Hk.
Qed.

Lemma low_bit_cases (k : Z) :
  0 <= k < 7 -> k = 0 \/ k = 1 \/ k = 2 \/ k = 3 \/ k = 4 \/ k = 5 \/ k = 6.
Proof. lia. Qed.

Lemma or_assign_PORTA_run (bits : Z) (s : avr) :
  busy s = None ->
  or_assign PORTA bits s =
    Done tt (log (Write PORTA (Z.land (Z.lor (porta s) bits) 255))
                 (set_porta (Z.land (Z.lor (porta s) bits) 255) s)).
Proof.
  intros Hb. unfold or_assign, bind, rd, wr, load, store.
  rewrite !(tick_idle 1 s Hb). reflexivity.
Qed.

Lemma and_not_assign_PORTA_run (bits : Z) (s : avr) :
  busy s = None ->
  and_not_assign PORTA bits s =
    Done tt (log (Write PORTA (Z.land (Z.land (porta s) (Z.lnot bits)) 255))
                 (set_porta (Z.land (Z.land (porta s) (Z.lnot bits)) 255) s)).
Proof.
  intros Hb. unfold and_not_assign, bind, rd, wr, load, store.
  rewrite !(tick_idle 1 s Hb). reflexivity.
Qed.

Lemma _delay_ms_run (ms : Z) (s : avr) :
  busy s = None -> _delay_ms ms s = Done tt (log (Delay ms) s).
Proof.
  intros Hb. unfold _delay_ms, pause.
  rewrite (tick_idle _ (log (Delay ms) s) Hb). reflexivity.
Qed.

Lemma blink_only_PA7 (s : avr) :
  adc_off s ->
  exists s' : avr,
    blink s = Done tt s' /\ adc_off s' /\ only_PA7_differs s s'
    /\ Z.testbit (porta s') PORTA7 = false.
Proof.
  intros [He Hb]. unfold blink, bind.
  rewrite (or_assign_PORTA_run _ s Hb).
  rewrite _delay_ms_run by exact Hb.
  rewrite and_not_assign_PORTA_run by exact Hb.
  rewrite _delay_ms_run by exact Hb.
  eexists. split; [reflexivity | ].
  split; [split; [exact He | exact Hb] | ].
  unfold only_PA7_differs.
  cbn [porta log set_trace set_porta admux adcsra adcl adch ddra busy nconv].
  split.
  - do 7 (split; [reflexivity | ]).
    intros k Hk. rewrite !Z.land_spec, Z.lor_spec.
    destruct (low_bit_cases k Hk) as [-> | [-> | [-> | [-> | [-> | [-> | ->]]]]]];
      cbn; rewrite orb_false_r, !andb_true_r; reflexivity.
  - rewrite !Z.land_spec. cbn. rewrite andb_false_r. reflexivity.
Qed.

Lemma for_lt_blink_only_PA7 (n : nat) :
  forall s : avr,
    adc_off s ->
    exists s' : avr,
      for_lt n blink s = Done tt s' /\ adc_off s' /\ only_PA7_differs s s'
      /\ ((0 < n)%nat -> Z.testbit (porta s') PORTA7 = false).
Proof.
  induction n as [| n IH]; intros s Hs.
  - exists s. split; [reflexivity | ]. split; [exact Hs | ].
    split; [apply only_PA7_differs_refl | lia].
  - destruct (blink_only_PA7 s Hs) as (s1 & Hrun1 & Hoff1 & Hrel1 & Hlow1).
    destruct (IH s1 Hoff1) as (s2 & Hrun2 & Hoff2 & Hrel2 & Hlow2).
    exists s2. cbn [for_lt]. unfold bind. rewrite Hrun1.
    split; [exact Hrun2 | ]. split; [exact Hoff2 | ].
    split; [exact (only_PA7_differs_trans s s1 s2 Hrel1 Hrel2) | ].
    intros _. destruct n as [| n].
    + cbn [for_lt] in Hrun2. injection Hrun2 as <-. exact Hlow1.
    + apply Hlow2. lia.
Qed.

(** X2: with the converter off, the blinks and the pause of an iteration
    always complete and change nothing but bit 7 of PORTA: the converter's
    registers, DDRA and the other seven pins of port A keep their values.
    After at least one blink PA7 is low; with no blink PORTA is untouched. *)
Theorem indicate_only_drives_PA7 (d : Z) (s : avr) :
  adc_off s ->
  exists s' : avr,
    indicate d s = Done tt s'
    /\ only_PA7_differs s s'
    /\ (0 < u8 (d / 10) -> Z.testbit (porta s') PORTA7 = false)
    /\ (u8 (d / 10) = 0 -> porta s' = porta s).
Proof.
  intros Hs. unfold indicate, bind.
  destruct (for_lt_blink_only_PA7 (Z.to_nat (u8 (d / 10))) s Hs)
    as (s1 & Hrun1 & Hoff1 & Hrel1 & Hlow1).
  pose proof Hrun1 as Hrun0.
  rewrite Hrun1. rewrite (_delay_ms_run 1000 s1 (proj2 Hoff1)).
  eexists. split; [reflexivity | ]. split; [exact Hrel1 | ]. split.
  - intros Hpos. apply Hlow1. lia.
  - intros Hz. rewrite Hz in Hrun0. cbn [Z.to_nat for_lt] in Hrun0.
    injection Hrun0 as <-. reflexivity.
Qed.

(** X2 at a port whose other pins hold 0x55, for a reading of 3.0 V. *)
Lemma indicate_only_drives_PA7_at_0x55 :
  let s := Avr 33 3 119 1 128 85 None false 3 (steady 375) [] in
  adc_off s
  /\ exists s' : avr,
       indicate 30 s = Done tt s'
       /\ only_PA7_differs s s'
       /\ (0 < u8 (30 / 10) -> Z.testbit (porta s') PORTA7 = false)
       /\ (u8 (30 / 10) = 0 -> porta s' = porta s).
Proof.
  cbv zeta.
  assert (Hs : adc_off (Avr 33 3 119 1 128 85 None false 3 (steady 375) []))
    by (split; reflexivity).
  split; [exact Hs | ].
  exact (indicate_only_drives_PA7 30 _ Hs).
Defined.

(** ** Range of the reading, of the blink count and of the timing *)

Lemma decivolts_bracket (raw : Z) :
  45 <= raw <= 1023 ->
  11 <= decivolts raw <= 250
  /\ decivolts raw * raw <= 11264 < (decivolts raw + 1) * raw.
Proof.
  intros Hr. rewrite decivolts_exact by lia.
  pose proof (Z.mul_div_le 11264 raw ltac:(lia)) as Hlo.
  pose proof (Z.mul_succ_div_gt 11264 raw ltac:(lia)) as Hhi.
  split; [split | split].
  - apply Z.div_le_lower_bound; lia.
  - apply Z.lt_succ_r. apply Z.div_lt_upper_bound; lia.
  - lia.
  - unfold Z.succ in Hhi. lia.
Qed.

(** X3: for a raw sample in 45..1023 the value returned lies in 11..250 and
    is the truncated quotient: value * raw <= 11264 < (value + 1) * raw, so
    the reading never overstates the supply voltage. *)
Theorem readVccVoltage_in_range (fuel : nat) (s : avr) :
  idle s -> (104 <= fuel)%nat -> 45 <= raw_sample s <= 1023 ->
  exists (v : Z) (s' : avr),
    readVccVoltage fuel s = Done v s'
    /\ 11 <= v <= 250
    /\ v * raw_sample s <= 11264 < (v + 1) * raw_sample s.
Proof.
  intros Hs Hf Hraw. exists (decivolts (raw_sample s)), (sampled s).
  rewrite (readVccVoltage_idle fuel s Hs Hf), (proj2 (Z.eqb_neq _ _)) by lia.
  split; [reflexivity | ]. apply decivolts_bracket, Hraw.
Qed.

(** X3 at a converter that reads 375. *)
Lemma readVccVoltage_in_range_at_raw_375 :
  exists (v : Z) (s' : avr),
    readVccVoltage 104 (reset (steady 375)) = Done v s'
    /\ 11 <= v <= 250
    /\ v * raw_sample (reset (steady 375)) <= 11264
         < (v + 1) * raw_sample (reset (steady 375)).
Proof.
  apply (readVccVoltage_in_range 104 (reset (steady 375))).
  - split; simpl; [reflexivity | lia].
  - lia.
  - vm_compute. split; discriminate.
Defined.

(** X4: for a raw sample in 1..1023 the value returned is the quotient
    11264 / raw exactly when the raw sample is at least 45; below that the
    cast to [uint8_t] has changed it. *)
Theorem readVccVoltage_exact_iff (fuel : nat) (s : avr) :
  idle s -> (104 <= fuel)%nat -> 1 <= raw_sample s <= 1023 ->
  exists (v : Z) (s' : avr),
    readVccVoltage fuel s = Done v s'
    /\ (v = 11264 / raw_sample s <-> 45 <= raw_sample s).
Proof.
  intros Hs Hf Hraw. exists (decivolts (raw_sample s)), (sampled s).
  rewrite (readVccVoltage_idle fuel s Hs Hf), (proj2 (Z.eqb_neq _ _)) by lia.
  split; [reflexivity | ]. split.
  - intros Heq. destruct (Z.le_gt_cases 45 (raw_sample s)) as [H45 | H44]; [exact H45 | ].
    exfalso. pose proof (decivolts_range (raw_sample s)) as Hd. rewrite Heq in Hd.
    assert (256 <= 11264 / raw_sample s) by (apply Z.div_le_lower_bound; lia).
    lia.
  - apply decivolts_exact.
Qed.

(** X4 at a converter that reads 44. *)
Lemma readVccVoltage_exact_iff_at_raw_44 :
  exists (v : Z) (s' : avr),
    readVccVoltage 104 (reset (steady 44)) = Done v s'
    /\ (v = 11264 / raw_sample (reset (steady 44)) <-> 45 <= raw_sample (reset (steady 44))).
Proof.
  apply (readVccVoltage_exact_iff 104 (reset (steady 44))).
  - split; simpl; [reflexivity | lia].
  - lia.
  - vm_compute. split; discriminate.
Defined.

(** X5: an iteration never blinks more than 25 times, and for a raw sample
    of 45 or more it blinks at least once. *)
Theorem blink_count_bounds (fuel : nat) (s : avr) :
  at_loop_head s -> (104 <= fuel)%nat -> raw_sample s <> 0 ->
  (blink_count (emitted (loop_body fuel) s) <= 25)%nat
  /\ (45 <= raw_sample s -> (1 <= blink_count (emitted (loop_body fuel) s))%nat).
Proof.
  intros Hs Hf Hraw.
  rewrite (emitted_loop_body fuel s Hs Hf Hraw).
  pose proof (blink_count_round_log (source s) (nconv s)) as Hc.
  fold (raw_sample s) in Hc.
  pose proof (decivolts_range (raw_sample s)) as Hd.
  pose proof (raw_sample_range s) as Hr.
  split.
  - assert (decivolts (raw_sample s) / 10 <= 25) by (apply Z.lt_succ_r, Z.div_lt_upper_bound; lia).
    lia.
  - intros H45. destruct (decivolts_bracket (raw_sample s) ltac:(lia)) as [[Hlo _] _].
    assert (1 <= decivolts (raw_sample s) / 10) by (apply Z.div_le_lower_bound; lia).
    lia.
Qed.

Lemma waited_app (l1 l2 : list probe) : waited (l1 ++ l2) = waited l1 + waited l2.
Proof. unfold waited. induction l1 as [| p l1 IH]; simpl; [reflexivity | rewrite IH; lia]. Qed.

Lemma lit_time_app (l1 l2 : list probe) : lit_time (l1 ++ l2) = lit_time l1 + lit_time l2.
Proof. unfold lit_time. induction l1 as [| p l1 IH]; simpl; [reflexivity | rewrite IH; lia]. Qed.

Lemma waited_pulses (n : nat) : waited (concat (repeat pulse_log n)) = 500 * Z.of_nat n.
Proof.
  induction n as [| n IH]; [reflexivity | ].
  cbn [repeat concat]. rewrite waited_app, IH.
  change (waited pulse_log) with 500. lia.
Qed.

Lemma lit_time_pulses (n : nat) : lit_time (concat (repeat pulse_log n)) = 250 * Z.of_nat n.
Proof.
  induction n as [| n IH]; [reflexivity | ].
  cbn [repeat concat]. rewrite lit_time_app, IH.
  change (lit_time pulse_log) with 250. lia.
Qed.

(** X6: the delays of an iteration add up to 1001 + 500 * count
    milliseconds, count being decivolts / 10: at most 13501 ms; the LED is
    lit for 250 * count of them. *)
Theorem iteration_timing (fuel : nat) (s : avr) :
  at_loop_head s -> (104 <= fuel)%nat -> raw_sample s <> 0 ->
  let count := decivolts (raw_sample s) / 10 in
  waited (emitted (loop_body fuel) s) = 1001 + 500 * count
  /\ lit_time (emitted (loop_body fuel) s) = 250 * count
  /\ waited (emitted (loop_body fuel) s) <= 13501.
Proof.
  intros Hs Hf Hraw count.
  rewrite (emitted_loop_body fuel s Hs Hf Hraw).
  assert (Hq : 0 <= count <= 25).
  { pose proof (decivolts_range (raw_sample s)) as Hd. unfold count. split.
    - apply Z.div_pos; lia.
    - apply Z.lt_succ_r, Z.div_lt_upper_bound; lia. }
  assert (Hw : waited (round_log (source s) (nconv s)) = 1001 + 500 * count).
  { unfold round_log. rewrite !waited_app, waited_pulses.
    fold (raw_sample s). fold count. rewrite Z2Nat.id by lia.
    change (waited (call_log false (nconv s) (source s))) with 1.
    change (waited [pause_probe]) with 1000. lia. }
  split; [exact Hw | ]. split; [ | lia].
  unfold round_log. rewrite !lit_time_app, lit_time_pulses.
  fold (raw_sample s). fold count. rewrite Z2Nat.id by lia.
  change (lit_time (call_log false (nconv s) (source s))) with 0.
  change (lit_time [pause_probe]) with 0. lia.
Qed.

(** X5 at the first iteration with a converter that reads 225. *)
Lemma blink_count_bounds_at_raw_225 :
  let s := final_state (or_assign DDRA (_BV PORTA7) (reset (steady 225))) in
  (blink_count (emitted (loop_body 104) s) <= 25)%nat
  /\ (45 <= raw_sample s -> (1 <= blink_count (emitted (loop_body 104) s))%nat).
Proof.
  cbv zeta.
  apply (blink_count_bounds 104 (final_state (or_assign DDRA (_BV PORTA7) (reset (steady 225))))).
  - repeat split; simpl; lia.
  - lia.
  - vm_compute. discriminate.
Defined.

(** X6 at the first iteration with a converter that reads 225. *)
Lemma iteration_timing_at_raw_225 :
  let s := final_state (or_assign DDRA (_BV PORTA7) (reset (steady 225))) in
  let count := decivolts (raw_sample s) / 10 in
  waited (emitted (loop_body 104) s) = 1001 + 500 * count
  /\ lit_time (emitted (loop_body 104) s) = 250 * count
  /\ waited (emitted (loop_body 104) s) <= 13501.
Proof.
  cbv zeta.
  apply (iteration_timing 104 (final_state (or_assign DDRA (_BV PORTA7) (reset (steady 225))))).
  - repeat split; simpl; lia.
  - lia.
  - vm_compute. discriminate.
Defined.

(** ** Conversions over the iterations *)

Lemma conversions_app (l1 l2 : list event) :
  conversions (l1 ++ l2) = (conversions l1 + conversions l2)%nat.
Proof. unfold conversions. rewrite filter_app, length_app. reflexivity. Qed.

Lemma completions_app (l1 l2 : list event) :
  completions (l1 ++ l2) = (completions l1 + completions l2)%nat.
Proof. unfold completions. rewrite filter_app, length_app. reflexivity. Qed.

Lemma conversions_pulses (n : nat) :
  conversions (map what (concat (repeat pulse_log n))) = 0%nat.
Proof.
  induction n as [| n IH]; [reflexivity | ].
  cbn [repeat concat]. rewrite map_app, conversions_app, IH. reflexivity.
Qed.

Lemma completions_pulses (n : nat) :
  completions (map what (concat (repeat pulse_log n))) = 0%nat.
Proof.
  induction n as [| n IH]; [reflexivity | ].
  cbn [repeat concat]. rewrite map_app, completions_app, IH. reflexivity.
Qed.

Lemma conversions_round_log (src : nat -> Z) (n : nat) :
  conversions (map what (round_log src n)) = 3%nat
  /\ completions (map what (round_log src n)) = 3%nat.
Proof.
  unfold round_log.
  rewrite !map_app, !conversions_app, !completions_app, conversions_pulses, completions_pulses.
  split; reflexivity.
Qed.

Lemma conversions_rounds (src : nat -> Z) (f : nat -> nat) (rounds : nat) :
  conversions (map what (flat_map (fun i => round_log src (f i)) (seq 0 rounds)))
    = (3 * rounds)%nat
  /\ completions (map what (flat_map (fun i => round_log src (f i)) (seq 0 rounds)))
     = (3 * rounds)%nat.
Proof.
  induction rounds as [| rounds [IHs IHf]]; [split; reflexivity | ].
  rewrite seq_S, flat_map_app, map_app, conversions_app, completions_app, IHs, IHf.
  cbn [flat_map]. rewrite app_nil_r.
  destruct (conversions_round_log src (f (0 + rounds)%nat)) as [-> ->].
  split; lia.
Qed.

(** X7: after any number of iterations from reset over nonzero samples,
    [main] has started exactly three conversions per iteration, every one of
    them has ended, none is in progress and the converter is off. *)
Theorem main_converts_three_times_a_round (rounds fuel : nat) (src : nat -> Z) :
  (104 <= fuel)%nat ->
  samples_nonzero src 0 rounds ->
  exists s : avr,
    main rounds fuel (reset src) = Done tt s
    /\ nconv s = (3 * rounds)%nat
    /\ conversions (map what (history s)) = (3 * rounds)%nat
    /\ completions (map what (history s)) = (3 * rounds)%nat
    /\ busy s = None
    /\ adc_enabled s = false.
Proof.
  intros Hf Hnz. unfold main, bind.
  change (or_assign DDRA (_BV PORTA7) (reset src))
    with (Done tt (Avr 0 0 0 0 128 0 None false 0 src [setup_probe])).
  cbv beta iota.
  destruct (forever_run fuel Hf rounds (Avr 0 0 0 0 128 0 None false 0 src [setup_probe]))
    as (s & Hrun & Hh & _ & Hn & Hlog).
  - repeat split; simpl; lia.
  - exact Hnz.
  - exists s. split; [exact Hrun | ]. split; [exact Hn | ].
    rewrite Hlog. cbn [history trace rev app map nconv source].
    destruct (conversions_rounds src (fun i => (0 + 3 * i)%nat) rounds) as [Hs Hc].
    split; [exact Hs | ]. split; [exact Hc | ].
    destruct Hh as [[Hb Ha] _]. split; [exact Hb | ].
    unfold adc_enabled.
    assert (Hcase : adcsra s = 0 \/ adcsra s = 1 \/ adcsra s = 2 \/ adcsra s = 3) by lia.
    destruct Hcase as [-> | [-> | [-> | ->]]]; reflexivity.
Qed.

(** X7 over four iterations with a converter that reads 375. *)
Lemma main_converts_three_times_a_round_at_raw_375 :
  exists s : avr,
    main 4 104 (reset (steady 375)) = Done tt s
    /\ nconv s = (3 * 4)%nat
    /\ conversions (map what (history s)) = (3 * 4)%nat
    /\ completions (map what (history s)) = (3 * 4)%nat
    /\ busy s = None
    /\ adc_enabled s = false.
Proof.
  apply (main_converts_three_times_a_round 4 104 (steady 375)).
  - lia.
  - intros i _. vm_compute. discriminate.
Defined.

(** ** Calls in a row *)

(** X8: a call leaves the converter ready for the next one.  Two calls in a
    row from an idle converter both return, use six conversions, and read
    the third and the sixth of them; when these two give the same raw sample
    the two values returned are the same. *)
Theorem readVccVoltage_twice (fuel : nat) (s : avr) :
  idle s -> (104 <= fuel)%nat ->
  raw_sample s <> 0 ->
  source s (5 + nconv s) mod 1024 <> 0 ->
  exists (v1 v2 : Z) (s1 s2 : avr),
    readVccVoltage fuel s = Done v1 s1
    /\ readVccVoltage fuel s1 = Done v2 s2
    /\ v1 = decivolts (source s (2 + nconv s) mod 1024)
    /\ v2 = decivolts (source s (5 + nconv s) mod 1024)
    /\ nconv s2 = (6 + nconv s)%nat
    /\ (source s (5 + nconv s) mod 1024 = source s (2 + nconv s) mod 1024 -> v2 = v1).
Proof.
  intros Hs Hf Hraw1 Hraw2.
  exists (decivolts (raw_sample s)), (decivolts (raw_sample (sampled s))),
         (sampled s), (sampled (sampled s)).
  rewrite (readVccVoltage_idle fuel s Hs Hf), (proj2 (Z.eqb_neq _ _) Hraw1).
  rewrite (readVccVoltage_idle fuel (sampled s) (sampled_idle s) Hf).
  change (raw_sample (sampled s)) with (source s (5 + nconv s) mod 1024).
  rewrite (proj2 (Z.eqb_neq _ _) Hraw2).
  split; [reflexivity | ]. split; [reflexivity | ]. split; [reflexivity | ].
  split; [reflexivity | ]. split; [reflexivity | ].
  intros Heq. rewrite Heq. reflexivity.
Qed.

(** X8 at a converter that always reads 225. *)
Lemma readVccVoltage_twice_at_raw_225 :
  exists (v1 v2 : Z) (s1 s2 : avr),
    readVccVoltage 104 (reset (steady 225)) = Done v1 s1
    /\ readVccVoltage 104 s1 = Done v2 s2
    /\ v1 = decivolts (steady 225 (2 + nconv (reset (steady 225))) mod 1024)
    /\ v2 = decivolts (steady 225 (5 + nconv (reset (steady 225))) mod 1024)
    /\ nconv s2 = (6 + nconv (reset (steady 225)))%nat
    /\ (steady 225 (5 + nconv (reset (steady 225))) mod 1024
          = steady 225 (2 + nconv (reset (steady 225))) mod 1024 -> v2 = v1).
Proof.
  apply (readVccVoltage_twice 104 (reset (steady 225))).
  - split; simpl; [reflexivity | lia].
  - lia.
  - vm_compute. discriminate.
  - vm_compute. discriminate.
Defined.

(** ** A raw sample of zero *)





(** ** The polling loop and the converter during the call *)

(** X10, the polling loop ([while_set_converting]), at the conversion that
    line 66 starts after reset: 200 cycles, 200 polls. *)
Lemma while_set_converting_after_start :
  let s := final_state (or_assign ADCSRA 195 (reset (steady 225))) in
  busy s = Some 200
  /\ Z.testbit (adcsra s) ADSC = true
  /\ 200 <= Z.of_nat 200
  /\ (0 < 200)%nat
  /\ while_set 200 ADCSRA ADSC s = Done tt (latch s).
Proof.
  cbv zeta.
  assert (Hb : busy (final_state (or_assign ADCSRA 195 (reset (steady 225)))) = Some 200)
    by reflexivity.
  assert (Hs : Z.testbit (adcsra (final_state (or_assign ADCSRA 195 (reset (steady 225))))) ADSC
               = true) by reflexivity.
  assert (Hf : 200 <= Z.of_nat 200) by lia.
  assert (Hp : (0 < 200)%nat) by lia.
  split; [exact Hb | ]. split; [exact Hs | ]. split; [exact Hf | ]. split; [exact Hp | ].
  exact (while_set_converting 200 _ 200 Hb Hs Hf Hp).
Defined.

(** X11: in a call from an idle converter the first thing logged is the
    write of 0x21 to ADMUX and the last the write that clears ADEN; at every
    entry between them, the 1 ms delay included, the converter is enabled,
    and the LED keeps the level it had before the call throughout. *)
Theorem converter_on_through_call (fuel : nat) (s : avr) :
  idle s -> (104 <= fuel)%nat -> raw_sample s <> 0 ->
  exists (first last : probe) (middle : list probe),
    emitted (readVccVoltage fuel) s = first :: middle ++ [last]
    /\ first = Probe (Write ADMUX 33) (led_lit s) false
    /\ last = Probe (Write ADCSRA 3) (led_lit s) false
    /\ Forall (fun p => adc_on p = true) middle
    /\ In (Delay 1) (map what middle)
    /\ Forall (fun p => led p = led_lit s) (first :: middle ++ [last]).
Proof.
  intros Hs Hf Hraw.
  destruct (emitted_readVccVoltage fuel s Hs Hf Hraw) as [Hlog _].
  rewrite Hlog. unfold call_log, sampling_log.
  eexists. eexists. eexists. split; [reflexivity | ].
  split; [reflexivity | ]. split; [reflexivity | ].
  split; [each_entry reflexivity | ].
  split; [cbn; tauto | each_entry reflexivity].
Qed.

(** X11 at the first call after reset with a converter that reads 225. *)
Lemma converter_on_through_call_at_raw_225 :
  exists (first last : probe) (middle : list probe),
    emitted (readVccVoltage 104) (reset (steady 225)) = first :: middle ++ [last]
    /\ first = Probe (Write ADMUX 33) (led_lit (reset (steady 225))) false
    /\ last = Probe (Write ADCSRA 3) (led_lit (reset (steady 225))) false
    /\ Forall (fun p => adc_on p = true) middle
    /\ In (Delay 1) (map what middle)
    /\ Forall (fun p => led p = led_lit (reset (steady 225))) (first :: middle ++ [last]).
Proof.
  apply (converter_on_through_call 104 (reset (steady 225))).
  - split; simpl; [reflexivity | lia].
  - lia.
  - vm_compute. discriminate.
Defined.
